(** * Request construction of [ipfshttpclient.client.files]

    A shallow embedding of the request builders of
    [src/ipfshttpclient/client/files.py] (classes [Section] and [Base]) and
    the properties of the calls they hand to the HTTP collaborator.

    The builders are Python methods.  Each one assembles a tuple of
    positional arguments, possibly a dict of options, and calls
    [self._client.request] or [self._client.download] with them.  The
    collaborator is external: the embedding of a builder returns the
    description of the call it makes (callee, endpoint path, positional
    arguments, keyword arguments), or the exception that escapes it.

    Dicts are Python objects with an identity.  The option dict a builder
    creates is a new object on the heap; a dict the caller passes as [opts]
    is the caller's object, passed on by reference.  The heap is therefore
    part of the model, threaded through a small state-and-exception monad. *)

From Stdlib Require Import ZArith.
From stdpp Require Import base option list gmap strings.

Open Scope Z_scope.
Open Scope string_scope.

Set Warnings "-clear-no-such-hyp".

(** ** Python values *)

(** Object references are indices into the heap. *)
Abbreviation loc := nat (only parsing).

(** The values that reach the builders: [None], booleans, integers,
    strings, references to dict objects, and other objects (streams,
    generators, compiled patterns) of which only the identity matters.
    Floating-point numbers are not modelled. *)
Inductive value : Type :=
  | VNone
  | VBool (b : bool)
  | VInt (n : Z)
  | VStr (s : string)
  | VRef (l : loc)
  | VObj (id : nat).

Global Instance value_eq_dec : EqDecision value.
Proof. solve_decision. Defined.

Global Instance value_inhabited : Inhabited value := populate VNone.

(** [v is not None] *)
Definition is_not_None (v : value) : bool :=
  match v with
  | VNone => false
  | _ => true
  end.

(** [v == n] for an integer literal [n].  A [bool] is an [int] in Python
    ([False == 0], [True == 1]); [None], strings, dicts and plain objects
    are different from every integer. *)
Definition py_eq_int (v : value) (n : Z) : bool :=
  match v with
  | VInt z => Z.eqb z n
  | VBool b => Z.eqb (Z.b2z b) n
  | _ => false
  end.

(** [v != n] *)
Definition py_ne_int (v : value) (n : Z) : bool := negb (py_eq_int v n).

(** A parameter with a default: [None] when the caller leaves it out. *)
Definition param (dflt : value) (supplied : option value) : value :=
  default dflt supplied.

(** ** Dicts, heap, exceptions *)

Abbreviation dict := (gmap string value) (only parsing).
Abbreviation heap := (list (gmap string value)) (only parsing).

Inductive exn : Type :=
  | TypeError            (* a keyword argument given twice in one call *)
  | KeyError             (* [pop] of a missing key, no default given *)
  | Raised (e : value).  (* an exception raised by a collaborator *)

Inductive result (A : Type) : Type :=
  | Ok (a : A)
  | Raise (e : exn).
Arguments Ok {A} a.
Arguments Raise {A} e.

(** Computations on the heap that may raise.  The heap survives an
    exception. *)
Definition M (A : Type) : Type := heap → result A * heap.

Global Instance M_ret : MRet M := λ A (a : A) h, (Ok a, h).

Global Instance M_bind : MBind M := λ A B (k : A → M B) (m : M A) h,
  match m h with
  | (Ok a, h') => k a h'
  | (Raise e, h') => (Raise e, h')
  end.

Definition lift {A} (r : result A) : M A := λ h, (r, h).

(** A dict display [{k1: v1, ...}] creates a new object.  Objects are never
    freed, so the new reference is the first unused index. *)
Definition new_dict (d : dict) : M loc :=
  λ h, (Ok (List.length h), (h ++ [d])%list).

(** [d[k] = v] on the dict object at [l].  References handed out by
    [new_dict] are always live; on any other index nothing changes. *)
Definition setitem (l : loc) (k : string) (v : value) : M unit :=
  λ h, (Ok tt, alter (insert k v) l h).

(** [kwargs] of a method is a dict made for that invocation and never
    handed on as an object (only unpacked with [**]), so it is threaded
    as a value. *)

(** [kwargs.setdefault(k, v)]: only the effect on [kwargs] is used. *)
Definition setdefault (k : string) (v : value) (kwargs : dict) : dict :=
  match kwargs !! k with
  | Some _ => kwargs
  | None => <[k := v]> kwargs
  end.

(** [kwargs.pop(k, dflt)]: the value and the remaining dict. *)
Definition pop (k : string) (dflt : value) (kwargs : dict) : value * dict :=
  (default dflt (kwargs !! k), delete k kwargs).

(** [kwargs.pop(k)]: [KeyError] when the key is missing. *)
Definition pop_item (k : string) (kwargs : dict) : result (value * dict) :=
  match kwargs !! k with
  | Some v => Ok (v, delete k kwargs)
  | None => Raise KeyError
  end.

(** [k in kwargs] *)
Definition contains (k : string) (kwargs : dict) : bool :=
  bool_decide (is_Some (kwargs !! k)).

(** ** Calls to the collaborator *)

Inductive callee : Type := Request | Download.

Global Instance callee_eq_dec : EqDecision callee.
Proof. solve_decision. Defined.

(** [self._client.<target>(path, args, **kw)]; [args] is [None] when the
    call passes the path alone. *)
Record call : Type := Call {
  target : callee;
  path : string;
  args : option (list value);
  kw : gmap string value
}.

(** Keyword arguments of a call [f(..., k1=v1, ..., **kwargs)]: Python
    raises [TypeError] when [kwargs] repeats one of the explicit keywords. *)
Fixpoint keywords (explicit : list (string * value)) (kwargs : dict) : result dict :=
  match explicit with
  | [] => Ok kwargs
  | (k, v) :: rest =>
      match kwargs !! k with
      | Some _ => Raise TypeError
      | None =>
          match keywords rest kwargs with
          | Ok m => Ok (<[k := v]> m)
          | Raise e => Raise e
          end
      end
  end.

Definition invoke (t : callee) (p : string) (a : option (list value))
    (explicit : list (string * value)) (kwargs : dict) : M call :=
  kw ← lift (keywords explicit kwargs);
  mret (Call t p a kw).

(** The client object: the attribute the builders read. *)
Record client : Type := Client { chunk_size : Z }.

(** The option dict a call carries, when it carries one. *)
Definition call_opts (c : call) (h : heap) : option dict :=
  match kw c !! "opts" with
  | Some (VRef l) => h !! l
  | _ => None
  end.

(** The option keys a call carries: none when no option dict is passed. *)
Definition opts_keys (c : call) (h : heap) : gset string :=
  from_option dom ∅ (call_opts c h).

(** ** class [Section]: the Mutable File System methods *)

Module Files.

(** [def cp(self, source, dest, **kwargs)] *)
Definition cp (self : client) (source dest : value) (kwargs : dict) : M call :=
  let args := [source; dest] in
  invoke Request "/files/cp" (Some args) [] kwargs.

(** [def ls(self, path, **kwargs)] *)
Definition ls (self : client) (path : value) (kwargs : dict) : M call :=
  let args := [path] in
  invoke Request "/files/ls" (Some args) [("decoder", VStr "json")] kwargs.

(** [def mkdir(self, path, parents=False, **kwargs)] *)
Definition mkdir (self : client) (path : value) (parents : option value)
    (kwargs : dict) : M call :=
  let parents := param (VBool false) parents in
  opts ← new_dict {[ "parents" := parents ]};
  let kwargs := setdefault "opts" (VRef opts) kwargs in
  let args := [path] in
  invoke Request "/files/mkdir" (Some args) [] kwargs.

(** [def mv(self, source, dest, **kwargs)] *)
Definition mv (self : client) (source dest : value) (kwargs : dict) : M call :=
  let args := [source; dest] in
  invoke Request "/files/mv" (Some args) [] kwargs.

(** [def read(self, path, offset=0, count=None, **kwargs)] *)
Definition read (self : client) (path : value) (offset count : option value)
    (kwargs : dict) : M call :=
  let offset := param (VInt 0) offset in
  let count := param VNone count in
  opts ← new_dict {[ "offset" := offset ]};
  (if is_not_None count then setitem opts "count" count else mret tt);;
  let kwargs := setdefault "opts" (VRef opts) kwargs in
  let args := [path] in
  invoke Request "/files/read" (Some args) [] kwargs.

(** [def rm(self, path, recursive=False, **kwargs)] *)
Definition rm (self : client) (path : value) (recursive : option value)
    (kwargs : dict) : M call :=
  let recursive := param (VBool false) recursive in
  opts ← new_dict {[ "recursive" := recursive ]};
  let kwargs := setdefault "opts" (VRef opts) kwargs in
  let args := [path] in
  invoke Request "/files/rm" (Some args) [] kwargs.

(** [def stat(self, path, **kwargs)] *)
Definition stat (self : client) (path : value) (kwargs : dict) : M call :=
  let args := [path] in
  invoke Request "/files/stat" (Some args) [("decoder", VStr "json")] kwargs.

Section Write.

(** [multipart.stream_files(file, chunk_size)], of the module
    [ipfshttpclient.multipart]: the body and the headers of the
    multipart encoding of one stream, or an exception. *)
Variable stream_files : value → Z → result (value * value).

(** [def write(self, path, file, offset=0, create=False,
    truncate=False, count=None, **kwargs)] *)
Definition write (self : client) (path file : value)
    (offset create truncate count : option value) (kwargs : dict) : M call :=
  let offset := param (VInt 0) offset in
  let create := param (VBool false) create in
  let truncate := param (VBool false) truncate in
  let count := param VNone count in
  opts ← new_dict (<["truncate" := truncate]>
                    (<["create" := create]> {[ "offset" := offset ]}));
  (if is_not_None count then setitem opts "count" count else mret tt);;
  let kwargs := setdefault "opts" (VRef opts) kwargs in
  let args := [path] in
  '(body, headers) ← lift (stream_files file (chunk_size self));
  invoke Request "/files/write" (Some args)
    [("data", body); ("headers", headers)] kwargs.

End Write.

End Files.

(** ** class [Base] *)

Module Base.

Section Add.

(** [multipart.stream_filesystem_node(files, recursive, pattern,
    chunk_size)], of the module [ipfshttpclient.multipart]: the body
    and the headers of the multipart encoding of a file or of a
    directory tree, or an exception. *)
Variable stream_filesystem_node :
  value → value → value → Z → result (value * value).

(** [def add(self, files, recursive=False, pattern='**', *args,
    **kwargs)]; the extra positional arguments [*args] are not used. *)
Definition add (self : client) (files : value)
    (recursive pattern : option value) (args : list value)
    (kwargs : dict) : M call :=
  let recursive := param (VBool false) recursive in
  let pattern := param (VStr "**") pattern in
  let '(trickle, kwargs) := pop "trickle" (VBool false) kwargs in
  let '(only_hash, kwargs) := pop "only_hash" (VBool false) kwargs in
  let '(wrap_with_directory, kwargs) :=
    pop "wrap_with_directory" (VBool false) kwargs in
  let '(pin, kwargs) := pop "pin" (VBool true) kwargs in
  let '(nocopy, kwargs) := pop "nocopy" (VBool false) kwargs in
  opts ← new_dict (<["nocopy" := nocopy]>
                    (<["pin" := pin]>
                      (<["wrap-with-directory" := wrap_with_directory]>
                        (<["only-hash" := only_hash]>
                          {[ "trickle" := trickle ]}))));
  kwargs ← (if contains "chunker" kwargs then
              '(chunker, kwargs) ← lift (pop_item "chunker" kwargs);
              setitem opts "chunker" chunker;;
              mret kwargs
            else mret kwargs);
  let kwargs := setdefault "opts" (VRef opts) kwargs in
  '(body, headers) ← lift (stream_filesystem_node files recursive pattern
                             (chunk_size self));
  invoke Request "/add" None
    [("decoder", VStr "json"); ("data", body); ("headers", headers)] kwargs.

End Add.

(** [def file_ls(self, multihash, **kwargs)] *)
Definition file_ls (self : client) (multihash : value) (kwargs : dict) : M call :=
  let args := [multihash] in
  invoke Request "/file/ls" (Some args) [("decoder", VStr "json")] kwargs.

(** [def get(self, multihash, **kwargs)] *)
Definition get (self : client) (multihash : value) (kwargs : dict) : M call :=
  let args := [multihash] in
  invoke Download "/get" (Some args) [] kwargs.

(** [def cat(self, multihash, offset=0, length=-1, **kwargs)] *)
Definition cat (self : client) (multihash : value) (offset length : option value)
    (kwargs : dict) : M call :=
  let offset := param (VInt 0) offset in
  let length := param (VInt (-1)) length in
  let args := [multihash] in
  opts ← new_dict ∅;
  (if py_ne_int offset 0 then setitem opts "offset" offset else mret tt);;
  (if py_ne_int length (-1) then setitem opts "length" length else mret tt);;
  let kwargs := setdefault "opts" (VRef opts) kwargs in
  invoke Request "/cat" (Some args) [] kwargs.

(** [def ls(self, multihash, **kwargs)] *)
Definition ls (self : client) (multihash : value) (kwargs : dict) : M call :=
  let args := [multihash] in
  invoke Request "/ls" (Some args) [("decoder", VStr "json")] kwargs.

End Base.

(** ** All the builders at once *)

(** The two functions of [ipfshttpclient.multipart] the builders use. *)
Record multipart : Type := Multipart {
  stream_files : value → Z → result (value * value);
  stream_filesystem_node : value → value → value → Z → result (value * value)
}.

(** One constructor per method of [files.py], with the arguments of the
    method other than [self] and [**kwargs]. *)
Inductive op : Type :=
  | Cp (source dest : value)
  | Ls (path : value)
  | Mkdir (path : value) (parents : option value)
  | Mv (source dest : value)
  | Read (path : value) (offset count : option value)
  | Rm (path : value) (recursive : option value)
  | Stat (path : value)
  | Write (path file : value) (offset create truncate count : option value)
  | Add (files : value) (recursive pattern : option value) (args : list value)
  | FileLs (multihash : value)
  | Get (multihash : value)
  | Cat (multihash : value) (offset length : option value)
  | BaseLs (multihash : value).

Definition run (mp : multipart) (self : client) (o : op) (kwargs : dict) : M call :=
  match o with
  | Cp source dest => Files.cp self source dest kwargs
  | Ls path => Files.ls self path kwargs
  | Mkdir path parents => Files.mkdir self path parents kwargs
  | Mv source dest => Files.mv self source dest kwargs
  | Read path offset count => Files.read self path offset count kwargs
  | Rm path recursive => Files.rm self path recursive kwargs
  | Stat path => Files.stat self path kwargs
  | Write path file offset create truncate count =>
      Files.write (stream_files mp) self path file offset create truncate count kwargs
  | Add files recursive pattern args =>
      Base.add (stream_filesystem_node mp) self files recursive pattern args kwargs
  | FileLs multihash => Base.file_ls self multihash kwargs
  | Get multihash => Base.get self multihash kwargs
  | Cat multihash offset length => Base.cat self multihash offset length kwargs
  | BaseLs multihash => Base.ls self multihash kwargs
  end.

(** The methods that build an option dict. *)
Definition builds_opts (o : op) : bool :=
  match o with
  | Mkdir _ _ | Read _ _ _ | Rm _ _ | Write _ _ _ _ _ _ | Add _ _ _ _ | Cat _ _ _ => true
  | _ => false
  end.

(** What the transport is given of a call, apart from the body: the
    endpoint path, the positional arguments and the contents of the
    option dict. *)
Definition observe (c : call) (h : heap) : string * option (list value) * option dict :=
  (path c, args c, call_opts c h).

(** ** The parts of a call, method by method *)

(** The options [write] stores in its new dict. *)
Definition write_built (offset create truncate count : option value) : dict :=
  (if is_not_None (param VNone count)
   then <["count" := param VNone count]> else id)
    (<["truncate" := param (VBool false) truncate]>
      (<["create" := param (VBool false) create]>
        {[ "offset" := param (VInt 0) offset ]})).

(** What is left of [kwargs] after [add] has popped its options. *)
Definition add_rest (kwargs : dict) : dict :=
  delete "chunker" (delete "nocopy" (delete "pin"
    (delete "wrap_with_directory" (delete "only_hash" (delete "trickle" kwargs))))).

(** The options [add] stores in its new dict. *)
Definition add_built (kwargs : dict) : dict :=
  (match kwargs !! "chunker" with
   | Some chunker => <["chunker" := chunker]>
   | None => id
   end)
    (<["nocopy" := default (VBool false) (kwargs !! "nocopy")]>
      (<["pin" := default (VBool true) (kwargs !! "pin")]>
        (<["wrap-with-directory" := default (VBool false) (kwargs !! "wrap_with_directory")]>
          (<["only-hash" := default (VBool false) (kwargs !! "only_hash")]>
            {[ "trickle" := default (VBool false) (kwargs !! "trickle") ]})))).

(** The collaborator a method calls. *)
Definition op_target (o : op) : callee :=
  match o with
  | Get _ => Download
  | _ => Request
  end.

(** The endpoint of a method. *)
Definition op_path (o : op) : string :=
  match o with
  | Cp _ _ => "/files/cp"
  | Ls _ => "/files/ls"
  | Mkdir _ _ => "/files/mkdir"
  | Mv _ _ => "/files/mv"
  | Read _ _ _ => "/files/read"
  | Rm _ _ => "/files/rm"
  | Stat _ => "/files/stat"
  | Write _ _ _ _ _ _ => "/files/write"
  | Add _ _ _ _ => "/add"
  | FileLs _ => "/file/ls"
  | Get _ => "/get"
  | Cat _ _ _ => "/cat"
  | BaseLs _ => "/ls"
  end.

(** The positional arguments of its call. *)
Definition op_args (o : op) : option (list value) :=
  match o with
  | Cp source dest | Mv source dest => Some [source; dest]
  | Ls p | Mkdir p _ | Read p _ _ | Rm p _ | Stat p | Write p _ _ _ _ _ => Some [p]
  | Add _ _ _ _ => None
  | FileLs m | Get m | Cat m _ _ | BaseLs m => Some [m]
  end.

(** The dict it creates, when it creates one. *)
Definition op_built (o : op) (kwargs : dict) : option dict :=
  match o with
  | Mkdir _ parents => Some {[ "parents" := param (VBool false) parents ]}
  | Rm _ recursive => Some {[ "recursive" := param (VBool false) recursive ]}
  | Read _ offset count =>
      Some (if is_not_None (param VNone count)
            then <["count" := param VNone count]> {[ "offset" := param (VInt 0) offset ]}
            else {[ "offset" := param (VInt 0) offset ]})
  | Write _ _ offset create truncate count =>
      Some (write_built offset create truncate count)
  | Add _ _ _ _ => Some (add_built kwargs)
  | Cat _ offset length =>
      Some ((if py_ne_int (param (VInt (-1)) length) (-1)
             then <["length" := param (VInt (-1)) length]> else id)
              ((if py_ne_int (param (VInt 0) offset) 0
                then <["offset" := param (VInt 0) offset]> else id) ∅))
  | _ => None
  end.

(** The caller's keywords it passes on. *)
Definition op_kwargs (o : op) (kwargs : dict) : dict :=
  match o with
  | Add _ _ _ _ => add_rest kwargs
  | _ => kwargs
  end.

(** The keywords it adds, or the exception of the encoder. *)
Definition op_explicit (mp : multipart) (self : client) (o : op) :
    result (list (string * value)) :=
  match o with
  | Ls _ | Stat _ | FileLs _ | BaseLs _ => Ok [("decoder", VStr "json")]
  | Write _ file _ _ _ _ =>
      match stream_files mp file (chunk_size self) with
      | Ok (body, headers) => Ok [("data", body); ("headers", headers)]
      | Raise e => Raise e
      end
  | Add files recursive pattern _ =>
      match stream_filesystem_node mp files (param (VBool false) recursive)
              (param (VStr "**") pattern) (chunk_size self) with
      | Ok (body, headers) =>
          Ok [("decoder", VStr "json"); ("data", body); ("headers", headers)]
      | Raise e => Raise e
      end
  | _ => Ok []
  end.

(** Methods that encode a body. *)
Definition streams (o : op) : bool :=
  match o with
  | Write _ _ _ _ _ _ | Add _ _ _ _ => true
  | _ => false
  end.

(** Methods that pass [decoder='json'] themselves. *)
Definition decodes_json (o : op) : bool :=
  match o with
  | Ls _ | Stat _ | Add _ _ _ _ | FileLs _ | BaseLs _ => true
  | _ => false
  end.

(** The keywords a method pops from the caller's for its own use. *)
Definition popped (o : op) : list string :=
  match o with
  | Add _ _ _ _ =>
      [ "trickle"; "only_hash"; "wrap_with_directory"; "pin"; "nocopy"; "chunker" ]
  | _ => []
  end.

(** The keywords of its call a method sets itself. *)
Definition own_keywords (o : op) : list string :=
  match o with
  | Ls _ | Stat _ | FileLs _ | BaseLs _ => [ "decoder" ]
  | Mkdir _ _ | Read _ _ _ | Rm _ _ | Cat _ _ _ => [ "opts" ]
  | Write _ _ _ _ _ _ => [ "opts"; "data"; "headers" ]
  | Add _ _ _ _ => [ "opts"; "decoder"; "data"; "headers" ]
  | _ => []
  end.

(** ** Values for the examples *)

(** A client used in the examples. *)
Definition client0 : client := Client 4096.

(** The same client with another chunk size. *)
Definition client1 : client := Client 8192.

(** An encoder of [multipart] used in the examples: it returns two
    objects, whatever it is given. *)
Definition encoder0 : value → value → value → Z → result (value * value) :=
  λ _ _ _ _, Ok (VObj 1, VObj 2).

(** The multipart encoders used in the examples. *)
Definition multipart0 : multipart := Multipart (encoder0 VNone VNone) encoder0.

(** Other encoders, as in another state of the file system. *)
Definition multipart1 : multipart :=
  Multipart (λ _ _, Raise (Raised (VStr "no such file")))
            (λ _ _ _ _, Ok (VObj 7, VObj 8)).

(** ** Evaluation lemmas *)

Lemma new_dict_lookup (h : heap) (d : dict) : (h ++ [d])%list !! List.length h = Some d.
Proof. by apply list_lookup_middle. Qed.

Lemma setitem_new (h : heap) (d : dict) k v :
  alter (insert k v) (List.length h) (h ++ [d])%list = (h ++ [<[k := v]> d])%list.
Proof. rewrite alter_app_r_alt; [|lia]. by rewrite Nat.sub_diag. Qed.

Lemma setdefault_lookup k v (kwargs : dict) :
  setdefault k v kwargs !! k = Some (default v (kwargs !! k)).
Proof.
  unfold setdefault. destruct (kwargs !! k) as [w|] eqn:E; simpl; [done|].
  apply lookup_insert_eq.
Qed.

Lemma setdefault_lookup_ne k k' v (kwargs : dict) :
  k ≠ k' → setdefault k v kwargs !! k' = kwargs !! k'.
Proof.
  intros Hne. unfold setdefault. destruct (kwargs !! k); [done|].
  by apply lookup_insert_ne.
Qed.

Lemma invoke_plain t p a (kwargs : dict) (h : heap) :
  invoke t p a [] kwargs h = (Ok (Call t p a kwargs), h).
Proof. reflexivity. Qed.

Lemma keywords_Ok explicit (kwargs m : dict) :
  keywords explicit kwargs = Ok m →
  Forall (λ kv, kwargs !! kv.1 = None) explicit
  ∧ m = foldr (λ kv acc, <[kv.1 := kv.2]> acc) kwargs explicit.
Proof.
  revert m. induction explicit as [|[k v] rest IH]; intros m; simpl.
  - intros [= <-]. by split.
  - destruct (kwargs !! k) eqn:Ek; [done|].
    destruct (keywords rest kwargs) as [m'|e]; [|done].
    intros [= <-]. destruct (IH m' eq_refl) as [Hall ->].
    split; [by constructor|done].
Qed.

Lemma keywords_free explicit (kwargs : dict) :
  Forall (λ kv, kwargs !! kv.1 = None) explicit →
  keywords explicit kwargs = Ok (foldr (λ kv acc, <[kv.1 := kv.2]> acc) kwargs explicit).
Proof.
  induction 1 as [|[k v] rest Hk _ IH]; simpl; [done|].
  simpl in Hk. by rewrite Hk, IH.
Qed.

Lemma keywords_clash explicit (kwargs : dict) :
  Exists (λ kv, is_Some (kwargs !! kv.1)) explicit →
  keywords explicit kwargs = Raise TypeError.
Proof.
  induction explicit as [|[k v] rest IH]; simpl.
  - by intros ?%Exists_nil.
  - intros [[w Hk]|Hrest]%Exists_cons; simpl in *.
    + by rewrite Hk.
    + destruct (kwargs !! k); [done|]. by rewrite IH.
Qed.

Lemma invoke_free t p a explicit (kwargs : dict) (h : heap) :
  Forall (λ kv, kwargs !! kv.1 = None) explicit →
  invoke t p a explicit kwargs h =
    (Ok (Call t p a (foldr (λ kv acc, <[kv.1 := kv.2]> acc) kwargs explicit)), h).
Proof.
  intros Hfree. unfold invoke, mbind, M_bind, lift, mret, M_ret.
  by rewrite keywords_free.
Qed.

(** ** What each option-building method returns *)

Ltac run_builder :=
  unfold mbind, M_bind, mret, M_ret, new_dict, setitem, lift; simpl;
  rewrite ?setitem_new.

Lemma mkdir_run self path parents (kwargs : dict) (h : heap) :
  Files.mkdir self path parents kwargs h =
    (Ok (Call Request "/files/mkdir" (Some [path])
           (setdefault "opts" (VRef (List.length h)) kwargs)),
     (h ++ [ {[ "parents" := param (VBool false) parents ]} ])%list).
Proof. reflexivity. Qed.

Lemma rm_run self path recursive (kwargs : dict) (h : heap) :
  Files.rm self path recursive kwargs h =
    (Ok (Call Request "/files/rm" (Some [path])
           (setdefault "opts" (VRef (List.length h)) kwargs)),
     (h ++ [ {[ "recursive" := param (VBool false) recursive ]} ])%list).
Proof. reflexivity. Qed.

Lemma read_run self path offset count (kwargs : dict) (h : heap) :
  Files.read self path offset count kwargs h =
    (Ok (Call Request "/files/read" (Some [path])
           (setdefault "opts" (VRef (List.length h)) kwargs)),
     (h ++ [ if is_not_None (param VNone count)
             then <["count" := param VNone count]> {[ "offset" := param (VInt 0) offset ]}
             else {[ "offset" := param (VInt 0) offset ]} ])%list).
Proof.
  unfold Files.read. run_builder.
  destruct (is_not_None (param VNone count)); run_builder; reflexivity.
Qed.

Lemma cat_run self multihash offset length (kwargs : dict) (h : heap) :
  Base.cat self multihash offset length kwargs h =
    (Ok (Call Request "/cat" (Some [multihash])
           (setdefault "opts" (VRef (List.length h)) kwargs)),
     (h ++ [ (if py_ne_int (param (VInt (-1)) length) (-1)
              then <["length" := param (VInt (-1)) length]> else id)
             ((if py_ne_int (param (VInt 0) offset) 0
               then <["offset" := param (VInt 0) offset]> else id) ∅) ])%list).
Proof.
  unfold Base.cat. run_builder.
  destruct (py_ne_int (param (VInt 0) offset) 0); run_builder;
    destruct (py_ne_int (param (VInt (-1)) length) (-1)); run_builder; reflexivity.
Qed.

(** The dict a builder has just created is the one the call carries,
    unless the caller gave [opts]. *)
Lemma call_opts_built t p a (kwargs built : dict) (h : heap) :
  kwargs !! "opts" = None →
  call_opts (Call t p a (setdefault "opts" (VRef (List.length h)) kwargs))
    (h ++ [built])%list = Some built.
Proof.
  intros Hno. unfold call_opts; simpl.
  rewrite setdefault_lookup, Hno; simpl. apply new_dict_lookup.
Qed.

(** With [opts] given, the call carries the caller's value. *)
Lemma call_opts_given t p a (kwargs : dict) v l :
  kwargs !! "opts" = Some v →
  kw (Call t p a (setdefault "opts" (VRef l) kwargs)) !! "opts" = Some v.
Proof. intros Hv; simpl. by rewrite setdefault_lookup, Hv. Qed.

Lemma write_run sf self path file offset create truncate count
    (kwargs : dict) (h : heap) :
  Files.write sf self path file offset create truncate count kwargs h =
    (match sf file (chunk_size self) with
     | Ok (body, headers) =>
         match keywords [("data", body); ("headers", headers)]
                 (setdefault "opts" (VRef (List.length h)) kwargs) with
         | Ok m => Ok (Call Request "/files/write" (Some [path]) m)
         | Raise e => Raise e
         end
     | Raise e => Raise e
     end,
     (h ++ [write_built offset create truncate count])%list).
Proof.
  unfold Files.write, write_built, invoke. run_builder.
  destruct (is_not_None (param VNone count)); run_builder;
    (destruct (sf file (chunk_size self)) as [[body headers]|e]; [|done]);
    simpl; repeat case_match; simplify_eq; done.
Qed.

Lemma add_run sfn self files recursive pattern args (kwargs : dict) (h : heap) :
  Base.add sfn self files recursive pattern args kwargs h =
    (match sfn files (param (VBool false) recursive) (param (VStr "**") pattern)
             (chunk_size self) with
     | Ok (body, headers) =>
         match keywords [("decoder", VStr "json"); ("data", body); ("headers", headers)]
                 (setdefault "opts" (VRef (List.length h)) (add_rest kwargs)) with
         | Ok m => Ok (Call Request "/add" None m)
         | Raise e => Raise e
         end
     | Raise e => Raise e
     end,
     (h ++ [add_built kwargs])%list).
Proof.
  unfold Base.add, add_built, add_rest, invoke, pop, pop_item, contains.
  set (k5 := delete "nocopy" _).
  assert (k5 !! "chunker" = kwargs !! "chunker") as Hc.
  { unfold k5. by rewrite !lookup_delete_ne. }
  run_builder. rewrite Hc.
  rewrite !(lookup_delete_ne _ _ _) by done.
  destruct (kwargs !! "chunker") as [chunker|] eqn:E.
  - rewrite bool_decide_eq_true_2 by eauto. run_builder.
    destruct (sfn _ _ _ _) as [[body headers]|e]; [|done].
    simpl; repeat case_match; simplify_eq; done.
  - rewrite bool_decide_eq_false_2 by (by intros [? ?]). run_builder.
    rewrite (delete_id k5 "chunker") by (by rewrite Hc).
    destruct (sfn _ _ _ _) as [[body headers]|e]; [|done].
    simpl; repeat case_match; simplify_eq; done.
Qed.

(** ** Properties of the calls *)

(** C2. [read(path, offset, count)] creates one dict.  It always has the
    key ["offset"], bound to the offset of the call (0 when the caller
    gives none), also when that offset is 0.  It has the key ["count"]
    exactly when the caller supplied a count, that is, a count other than
    [None]; then ["count"] is bound to it.  It has no other key.  The call
    is always made, and carries that dict as its options when the caller
    gives no [opts]. *)
Theorem read_offset_always_count_if_supplied
    self path offset count (kwargs : dict) (h : heap) :
  ∃ c built,
    Files.read self path offset count kwargs h = (Ok c, (h ++ [built])%list)
    ∧ built !! "offset" = Some (param (VInt 0) offset)
    ∧ ("count" ∈ dom built ↔ param VNone count ≠ VNone)
    ∧ (param VNone count ≠ VNone → built !! "count" = Some (param VNone count))
    ∧ dom built ⊆ {[ "offset"; "count" ]}
    ∧ (kwargs !! "opts" = None → call_opts c (h ++ [built])%list = Some built).
Proof.
  eexists _, _. split; [apply read_run|].
  destruct (param VNone count) eqn:Ec; simpl;
    repeat split; try done;
    rewrite ?dom_insert_L, ?dom_singleton_L, ?lookup_insert_eq;
    try set_solver; try (by apply call_opts_built).
Qed.

Lemma read_offset_always_count_if_supplied_witness :
  ∃ c built,
    Files.read client0 (VStr "/bla/file") (Some (VInt 0)) (Some (VInt 5)) ∅ []
      = (Ok c, [built])
    ∧ built !! "offset" = Some (VInt 0)
    ∧ built !! "count" = Some (VInt 5)
    ∧ call_opts c [built] = Some built.
Proof.
  destruct (read_offset_always_count_if_supplied client0 (VStr "/bla/file")
              (Some (VInt 0)) (Some (VInt 5)) ∅ [])
    as (c & built & Hrun & Hoff & _ & Hcount & _ & Hopts).
  exists c, built. split; [exact Hrun|]. split; [exact Hoff|].
  split; [apply Hcount; discriminate | apply Hopts; reflexivity].
Defined.

(** C5. [mkdir(path, parents)] and [rm(path, recursive)] each create a
    dict with the single key ["parents"] (respectively ["recursive"]),
    bound to the caller's value, and to [False] when the caller gives
    none.  The call is always made, and carries that dict as its options
    when the caller gives no [opts]. *)
Theorem mkdir_rm_flag_always_present self p flag (kwargs : dict) (h : heap) :
  (∃ c, Files.mkdir self p flag kwargs h
          = (Ok c, (h ++ [ {[ "parents" := default (VBool false) flag ]} ])%list)
        ∧ target c = Request ∧ path c = "/files/mkdir"
        ∧ args c = Some [p]
        ∧ (kwargs !! "opts" = None →
           call_opts c (h ++ [ {[ "parents" := default (VBool false) flag ]} ])%list
             = Some {[ "parents" := default (VBool false) flag ]}))
  ∧ (∃ c, Files.rm self p flag kwargs h
          = (Ok c, (h ++ [ {[ "recursive" := default (VBool false) flag ]} ])%list)
        ∧ target c = Request ∧ path c = "/files/rm"
        ∧ args c = Some [p]
        ∧ (kwargs !! "opts" = None →
           call_opts c (h ++ [ {[ "recursive" := default (VBool false) flag ]} ])%list
             = Some {[ "recursive" := default (VBool false) flag ]})).
Proof.
  split; eexists; (split; [apply mkdir_run || apply rm_run|]);
    repeat split; apply call_opts_built.
Qed.

Lemma mkdir_rm_flag_always_present_witness :
  (∃ c, Files.mkdir client0 (VStr "/x") None ∅ []
          = (Ok c, [ {[ "parents" := VBool false ]} ])
        ∧ call_opts c [ {[ "parents" := VBool false ]} ]
            = Some {[ "parents" := VBool false ]})
  ∧ (∃ c, Files.rm client0 (VStr "/x") None ∅ []
          = (Ok c, [ {[ "recursive" := VBool false ]} ])
        ∧ call_opts c [ {[ "recursive" := VBool false ]} ]
            = Some {[ "recursive" := VBool false ]}).
Proof.
  destruct (mkdir_rm_flag_always_present client0 (VStr "/x") None ∅ [])
    as [(c1 & Hrun1 & _ & _ & _ & Hopts1) (c2 & Hrun2 & _ & _ & _ & Hopts2)].
  split.
  - exists c1. split; [exact Hrun1 | apply Hopts1; reflexivity].
  - exists c2. split; [exact Hrun2 | apply Hopts2; reflexivity].
Defined.

(** C6. [cp(source, dest)] always makes the request to ['/files/cp'] with
    the positional arguments [source], [dest] in that order.  It creates no
    dict and adds no keyword: the keywords of the request are the caller's
    own, so without [opts] from the caller the call carries no option key. *)
Theorem cp_args_and_no_options self source dest (kwargs : dict) (h : heap) :
  ∃ c, Files.cp self source dest kwargs h = (Ok c, h)
       ∧ target c = Request ∧ path c = "/files/cp"
       ∧ args c = Some [source; dest]
       ∧ kw c = kwargs
       ∧ (kwargs !! "opts" = None → opts_keys c h = ∅).
Proof.
  eexists. split; [apply invoke_plain|]. repeat split.
  intros Hno. unfold opts_keys, call_opts; simpl. by rewrite Hno.
Qed.

Lemma cp_args_and_no_options_witness :
  ∃ c, Files.cp client0 (VStr "/a") (VStr "/b") ∅ [] = (Ok c, [])
       ∧ args c = Some [VStr "/a"; VStr "/b"]
       ∧ kw c = ∅
       ∧ opts_keys c [] = ∅.
Proof.
  destruct (cp_args_and_no_options client0 (VStr "/a") (VStr "/b") ∅ [])
    as (c & Hrun & _ & _ & Hargs & Hkw & Hno).
  exists c. split; [exact Hrun|]. split; [exact Hargs|].
  split; [exact Hkw | apply Hno; reflexivity].
Defined.


(** C1, as the code has it.  [cat] creates a dict that has the key
    ["offset"] exactly when the offset of the call differs from 0 and the
    key ["length"] exactly when its length differs from -1 (both 0 and -1
    being what the call gets when the caller gives nothing), each bound to
    the value of the call, and no other key.  [read] creates a dict that has
    the key ["count"] exactly when the count is not [None]; its key
    ["offset"] is there on every call, also for the offset 0.  Both calls are
    always made and carry that dict as their options when the caller gives
    no [opts]. *)
Theorem cat_omits_defaults_read_omits_unset_count
    self target offset length count (kwargs : dict) (h : heap) :
  (∃ c built,
     Base.cat self target offset length kwargs h = (Ok c, (h ++ [built])%list)
     ∧ ("offset" ∈ dom built ↔ py_ne_int (param (VInt 0) offset) 0 = true)
     ∧ ("length" ∈ dom built ↔ py_ne_int (param (VInt (-1)) length) (-1) = true)
     ∧ dom built ⊆ {[ "offset"; "length" ]}
     ∧ (∀ v, built !! "offset" = Some v → v = param (VInt 0) offset)
     ∧ (∀ v, built !! "length" = Some v → v = param (VInt (-1)) length)
     ∧ (kwargs !! "opts" = None → call_opts c (h ++ [built])%list = Some built))
  ∧ (∃ c built,
       Files.read self target offset count kwargs h = (Ok c, (h ++ [built])%list)
       ∧ "offset" ∈ dom built
       ∧ ("count" ∈ dom built ↔ param VNone count ≠ VNone)
       ∧ (kwargs !! "opts" = None → call_opts c (h ++ [built])%list = Some built)).
Proof.
  split.
  - eexists _, _. split; [apply cat_run|].
    destruct (py_ne_int (param (VInt 0) offset) 0) eqn:Eo;
      destruct (py_ne_int (param (VInt (-1)) length) (-1)) eqn:El; simpl;
      (repeat split; try (by apply call_opts_built);
       rewrite ?dom_insert_L, ?dom_empty_L; try set_solver;
       intros v; rewrite ?lookup_insert_ne by done;
       rewrite ?lookup_insert_eq, ?lookup_empty; congruence).
  - eexists _, _. split; [apply read_run|].
    destruct (param VNone count) eqn:Ec; simpl;
      repeat split; try done;
      rewrite ?dom_insert_L, ?dom_singleton_L;
      try set_solver; try (by apply call_opts_built).
Qed.

Lemma cat_omits_defaults_read_omits_unset_count_witness :
  (∃ c built,
     Base.cat client0 (VStr "QmeKoz") (Some (VInt 0)) (Some (VInt (-1))) ∅ []
       = (Ok c, [built])
     ∧ dom built ⊆ {[ "offset"; "length" ]}
     ∧ call_opts c [built] = Some built)
  ∧ (∃ c built,
       Files.read client0 (VStr "QmeKoz") (Some (VInt 0)) (Some (VInt (-1))) ∅ []
         = (Ok c, [built])
       ∧ "offset" ∈ dom built
       ∧ call_opts c [built] = Some built).
Proof.
  destruct (cat_omits_defaults_read_omits_unset_count client0 (VStr "QmeKoz")
              (Some (VInt 0)) (Some (VInt (-1))) (Some (VInt (-1))) ∅ [])
    as [(c1 & b1 & Hrun1 & _ & _ & Hdom & _ & _ & Hopts1)
        (c2 & b2 & Hrun2 & Hoff & _ & Hopts2)].
  split.
  - exists c1, b1. split; [exact Hrun1|].
    split; [exact Hdom | apply Hopts1; reflexivity].
  - exists c2, b2. split; [exact Hrun2|].
    split; [exact Hoff | apply Hopts2; reflexivity].
Defined.

(** C1, as stated, fails: [read] with the default offset 0 and no count
    does not omit ["offset"] from the options of its call. *)
Lemma read_zero_offset_is_emitted :
  ¬ (∀ c h',
       Files.read client0 (VStr "/bla/file") (Some (VInt 0)) None ∅ [] = (Ok c, h') →
       "offset" ∉ opts_keys c h').
Proof.
  intros Homit. eapply Homit; [apply read_run|].
  unfold opts_keys. rewrite call_opts_built by reflexivity. simpl.
  rewrite dom_singleton_L. set_solver.
Qed.

(** The explicit keywords of a call do not touch the other keys. *)
Lemma keywords_lookup_other explicit (kwargs m : dict) k :
  keywords explicit kwargs = Ok m →
  Forall (λ kv, kv.1 ≠ k) explicit →
  m !! k = kwargs !! k.
Proof.
  intros [_ ->]%keywords_Ok Hother.
  induction Hother as [|[k' v] rest Hk _ IH]; simpl; [done|].
  simpl in Hk. by rewrite lookup_insert_ne.
Qed.

Lemma add_rest_lookup (kwargs : dict) k :
  k ∉ [ "trickle"; "only_hash"; "wrap_with_directory"; "pin"; "nocopy"; "chunker" ] →
  add_rest kwargs !! k = kwargs !! k.
Proof.
  intros Hk. unfold add_rest.
  rewrite !lookup_delete_ne; [done|intros <-; apply Hk; set_solver..].
Qed.

Lemma add_rest_popped (kwargs : dict) k :
  k ∈ [ "trickle"; "only_hash"; "wrap_with_directory"; "pin"; "nocopy"; "chunker" ] →
  add_rest kwargs !! k = None.
Proof.
  intros Hk. unfold add_rest.
  repeat (apply elem_of_cons in Hk as [->|Hk];
          [by rewrite ?(lookup_delete_ne _ _ _) by done; rewrite lookup_delete_eq|]).
  by apply elem_of_nil in Hk.
Qed.

(** C3. [add] creates one dict.  Its keys are ["trickle"], ["only-hash"],
    ["wrap-with-directory"], ["pin"] and ["nocopy"] on every call, and
    ["chunker"] exactly when the caller supplied [chunker]; the underscore
    spellings ["only_hash"] and ["wrap_with_directory"] are never keys of it,
    and not keywords of the request either.  The values are the caller's
    [trickle], [only_hash], [wrap_with_directory], [pin], [nocopy] and
    [chunker]; what the caller leaves out is [False], except [pin], which is
    [True].  When the encoder of [multipart] returns and the caller gives none
    of [decoder], [data], [headers], the request to ['/add'] is made; a
    request that is made carries that dict as its options when the caller
    gives no [opts]. *)
Theorem add_option_keys sfn self files recursive pattern args
    (kwargs : dict) (h : heap) :
  ∃ r built,
    Base.add sfn self files recursive pattern args kwargs h
      = (r, (h ++ [built])%list)
    ∧ built !! "trickle" = Some (default (VBool false) (kwargs !! "trickle"))
    ∧ built !! "only-hash" = Some (default (VBool false) (kwargs !! "only_hash"))
    ∧ built !! "wrap-with-directory"
        = Some (default (VBool false) (kwargs !! "wrap_with_directory"))
    ∧ built !! "pin" = Some (default (VBool true) (kwargs !! "pin"))
    ∧ built !! "nocopy" = Some (default (VBool false) (kwargs !! "nocopy"))
    ∧ built !! "chunker" = kwargs !! "chunker"
    ∧ dom built ⊆ {[ "trickle"; "only-hash"; "wrap-with-directory"; "pin";
                     "nocopy"; "chunker" ]}
    ∧ ("only_hash" ∉ dom built) ∧ ("wrap_with_directory" ∉ dom built)
    ∧ (∀ c, r = Ok c →
         target c = Request ∧ path c = "/add"
         ∧ kw c !! "only_hash" = None ∧ kw c !! "wrap_with_directory" = None
         ∧ (kwargs !! "opts" = None →
            call_opts c (h ++ [built])%list = Some built))
    ∧ (∀ body headers,
         sfn files (param (VBool false) recursive) (param (VStr "**") pattern)
           (chunk_size self) = Ok (body, headers) →
         kwargs !! "decoder" = None → kwargs !! "data" = None →
         kwargs !! "headers" = None →
         ∃ c, r = Ok c).
Proof.
  eexists _, _. split; [apply add_run|].
  assert (∀ k v (m : dict), k ≠ "chunker" →
            (match kwargs !! "chunker" with
             | Some chunker => <["chunker" := chunker]>
             | None => id
             end) m !! k = Some v ↔ m !! k = Some v) as Hbase.
  { intros k v m Hk. destruct (kwargs !! "chunker"); [|done].
    by rewrite lookup_insert_ne. }
  split_and!.
  - unfold add_built. apply Hbase; [done|].
    rewrite ?lookup_insert_ne by done. apply lookup_singleton_eq.
  - unfold add_built. apply Hbase; [done|].
    rewrite ?lookup_insert_ne by done. apply lookup_insert_eq.
  - unfold add_built. apply Hbase; [done|].
    rewrite ?lookup_insert_ne by done. apply lookup_insert_eq.
  - unfold add_built. apply Hbase; [done|].
    rewrite ?lookup_insert_ne by done. apply lookup_insert_eq.
  - unfold add_built. apply Hbase; [done|]. by rewrite lookup_insert_eq.
  - unfold add_built. destruct (kwargs !! "chunker"); [by rewrite lookup_insert_eq|].
    simpl. rewrite ?lookup_insert_ne by done. by apply lookup_singleton_ne.
  - unfold add_built. destruct (kwargs !! "chunker"); simpl;
      rewrite !dom_insert_L, dom_singleton_L; set_solver.
  - unfold add_built. destruct (kwargs !! "chunker"); simpl;
      rewrite !dom_insert_L, dom_singleton_L; set_solver.
  - unfold add_built. destruct (kwargs !! "chunker"); simpl;
      rewrite !dom_insert_L, dom_singleton_L; set_solver.
  - intros c Hc.
    destruct (sfn _ _ _ _) as [[b hd]|]; [|done].
    destruct (keywords _ _) as [m|] eqn:Ekw; [|done].
    injection Hc as <-. simpl.
    assert (∀ k, k ∉ ["decoder"; "data"; "headers"] →
                 m !! k = setdefault "opts" (VRef (List.length h)) (add_rest kwargs) !! k)
      as Hm.
    { intros k Hk. apply (keywords_lookup_other _ _ _ _ Ekw).
      repeat constructor; simpl; intros <-; apply Hk; set_solver. }
    split_and!; try done.
    + rewrite Hm by set_solver. rewrite setdefault_lookup_ne by done.
      apply add_rest_popped; set_solver.
    + rewrite Hm by set_solver. rewrite setdefault_lookup_ne by done.
      apply add_rest_popped; set_solver.
    + intros Hno. unfold call_opts; simpl. rewrite Hm by set_solver.
      rewrite setdefault_lookup, add_rest_lookup, Hno by set_solver; simpl.
      apply new_dict_lookup.
  - intros body headers -> Hdec Hdata Hhd.
    rewrite keywords_free; [by eexists|].
    repeat constructor; simpl;
      rewrite setdefault_lookup_ne by done; rewrite add_rest_lookup; set_solver.
Qed.

Lemma add_option_keys_witness :
  ∃ c built,
    Base.add encoder0 client0 (VStr "nurseryrhyme.txt") None None []
      {[ "only_hash" := VBool true ]} []
      = (Ok c, [built])
    ∧ built !! "only-hash" = Some (VBool true)
    ∧ built !! "pin" = Some (VBool true)
    ∧ built !! "chunker" = None
    ∧ ("only_hash" ∉ dom built)
    ∧ kw c !! "only_hash" = None
    ∧ call_opts c [built] = Some built.
Proof.
  destruct (add_option_keys encoder0 client0 (VStr "nurseryrhyme.txt") None None []
              {[ "only_hash" := VBool true ]} [])
    as (r & built & Hrun & _ & Hhash & _ & Hpin & _ & Hchunker & _ & Hunder & _
        & Hcall & Hmade).
  destruct (Hmade (VObj 1) (VObj 2)) as [c ->]; [reflexivity..|].
  destruct (Hcall c eq_refl) as (_ & _ & Hkw & _ & Hopts).
  exists c, built. split; [exact Hrun|].
  split; [exact Hhash|]. split; [exact Hpin|]. split; [exact Hchunker|].
  split; [exact Hunder|].
  split; [exact Hkw | apply Hopts; reflexivity].
Defined.

(** C4. [write] creates one dict.  It has the keys ["offset"], ["create"]
    and ["truncate"] on every call, bound to the values of the call (0,
    [False], [False] when the caller gives none), and the key ["count"]
    exactly when the caller supplied a count other than [None], then bound
    to it; it has no other key.  When [multipart.stream_files], given the
    byte source and the chunk size of the client, returns a body and
    headers, and the caller gives neither [data] nor [headers], the request
    to ['/files/write'] is made; a request that is made has that body as
    [data] and those headers as [headers], the positional argument [path],
    and that dict as its options when the caller gives no [opts]. *)
Theorem write_options_and_body sf self p file offset create truncate count
    (kwargs : dict) (h : heap) :
  ∃ r built,
    Files.write sf self p file offset create truncate count kwargs h
      = (r, (h ++ [built])%list)
    ∧ built !! "offset" = Some (param (VInt 0) offset)
    ∧ built !! "create" = Some (param (VBool false) create)
    ∧ built !! "truncate" = Some (param (VBool false) truncate)
    ∧ ("count" ∈ dom built ↔ param VNone count ≠ VNone)
    ∧ (param VNone count ≠ VNone → built !! "count" = Some (param VNone count))
    ∧ dom built ⊆ {[ "offset"; "create"; "truncate"; "count" ]}
    ∧ (∀ c, r = Ok c →
         ∃ body headers,
           sf file (chunk_size self) = Ok (body, headers)
           ∧ kw c !! "data" = Some body ∧ kw c !! "headers" = Some headers
           ∧ target c = Request ∧ path c = "/files/write" ∧ args c = Some [p]
           ∧ (kwargs !! "opts" = None →
              call_opts c (h ++ [built])%list = Some built))
    ∧ (∀ body headers,
         sf file (chunk_size self) = Ok (body, headers) →
         kwargs !! "data" = None → kwargs !! "headers" = None →
         ∃ c, r = Ok c).
Proof.
  eexists _, _. split; [apply write_run|].
  assert (∀ k v (m : dict), k ≠ "count" →
            (if is_not_None (param VNone count)
             then <["count" := param VNone count]> else id) m !! k = Some v
            ↔ m !! k = Some v) as Hbase.
  { intros k v m Hk. destruct (is_not_None _); [|done].
    by rewrite lookup_insert_ne. }
  split_and!.
  - unfold write_built. apply Hbase; [done|].
    rewrite ?lookup_insert_ne by done. apply lookup_singleton_eq.
  - unfold write_built. apply Hbase; [done|].
    rewrite ?lookup_insert_ne by done. apply lookup_insert_eq.
  - unfold write_built. apply Hbase; [done|]. apply lookup_insert_eq.
  - unfold write_built. destruct (param VNone count); simpl;
      rewrite !dom_insert_L, dom_singleton_L; set_solver.
  - unfold write_built. destruct (param VNone count); simpl; try done;
      intros _; apply lookup_insert_eq.
  - unfold write_built. destruct (is_not_None _); simpl;
      rewrite !dom_insert_L, dom_singleton_L; set_solver.
  - intros c Hc.
    destruct (sf file (chunk_size self)) as [[body headers]|]; [|done].
    destruct (keywords _ _) as [m|] eqn:Ekw; [|done].
    injection Hc as <-. exists body, headers. simpl.
    pose proof Ekw as [_ ->]%keywords_Ok. simpl.
    split_and!; try done.
    + apply lookup_insert_eq.
    + rewrite lookup_insert_ne by done. apply lookup_insert_eq.
    + intros Hno. unfold call_opts; simpl.
      rewrite !lookup_insert_ne by done.
      rewrite setdefault_lookup, Hno; simpl. apply new_dict_lookup.
  - intros body headers -> Hdata Hhd.
    rewrite keywords_free; [by eexists|].
    repeat constructor; simpl; by rewrite setdefault_lookup_ne.
Qed.

Lemma write_options_and_body_witness :
  ∃ c built,
    Files.write (encoder0 VNone VNone) client0 (VStr "/test/file") (VObj 0)
      None (Some (VBool true)) None (Some (VInt 5)) ∅ []
      = (Ok c, [built])
    ∧ built !! "offset" = Some (VInt 0)
    ∧ built !! "create" = Some (VBool true)
    ∧ built !! "truncate" = Some (VBool false)
    ∧ built !! "count" = Some (VInt 5)
    ∧ kw c !! "data" = Some (VObj 1)
    ∧ call_opts c [built] = Some built.
Proof.
  destruct (write_options_and_body (encoder0 VNone VNone) client0
              (VStr "/test/file") (VObj 0)
              None (Some (VBool true)) None (Some (VInt 5)) ∅ [])
    as (r & built & Hrun & Hoff & Hcreate & Htrunc & _ & Hcount & _ & Hcall & Hmade).
  destruct (Hmade (VObj 1) (VObj 2)) as [c ->]; [reflexivity..|].
  destruct (Hcall c eq_refl) as (body & headers & Hsf & Hdata & _ & _ & _ & _ & Hopts).
  injection Hsf as <- <-.
  exists c, built. split; [exact Hrun|].
  split; [exact Hoff|]. split; [exact Hcreate|]. split; [exact Htrunc|].
  split; [apply Hcount; discriminate|].
  split; [exact Hdata | apply Hopts; reflexivity].
Defined.

(** C8. [ls(path)] and [stat(path)] of the file system section create no
    dict.  When the caller gives no [decoder] of their own (as in a call with
    the path alone), each makes its request, to ['/files/ls'] and
    ['/files/stat'], with the single positional argument [path] and the
    keyword [decoder='json'] added to the caller's keywords, which are
    otherwise passed on as they are: no option key is set.  A [decoder] from
    the caller clashes with the method's own and the call raises [TypeError]
    before any request. *)
Theorem ls_stat_path_and_json_decoder self p (kwargs : dict) (h : heap) :
  (kwargs !! "decoder" = None →
   (∃ c, Files.ls self p kwargs h = (Ok c, h)
         ∧ target c = Request ∧ path c = "/files/ls" ∧ args c = Some [p]
         ∧ kw c = <["decoder" := VStr "json"]> kwargs
         ∧ kw c !! "opts" = kwargs !! "opts")
   ∧ (∃ c, Files.stat self p kwargs h = (Ok c, h)
           ∧ target c = Request ∧ path c = "/files/stat" ∧ args c = Some [p]
           ∧ kw c = <["decoder" := VStr "json"]> kwargs
           ∧ kw c !! "opts" = kwargs !! "opts"))
  ∧ (is_Some (kwargs !! "decoder") →
     Files.ls self p kwargs h = (Raise TypeError, h)
     ∧ Files.stat self p kwargs h = (Raise TypeError, h)).
Proof.
  split.
  - intros Hno. split; eexists;
      (split; [apply invoke_free; by repeat constructor|]);
      simpl; split_and!; try done; by apply lookup_insert_ne.
  - intros [d Hd]. unfold Files.ls, Files.stat, invoke; run_builder.
    by rewrite Hd.
Qed.

Lemma ls_stat_path_and_json_decoder_witness :
  (∃ c, Files.ls client0 (VStr "/") ∅ [] = (Ok c, [])
        ∧ args c = Some [VStr "/"]
        ∧ kw c = <["decoder" := VStr "json"]> ∅
        ∧ opts_keys c [] = ∅)
  ∧ (∃ c, Files.stat client0 (VStr "/") ∅ [] = (Ok c, [])
          ∧ args c = Some [VStr "/"]
          ∧ kw c = <["decoder" := VStr "json"]> ∅
          ∧ opts_keys c [] = ∅).
Proof.
  destruct (ls_stat_path_and_json_decoder client0 (VStr "/") ∅ []) as [Hmade _].
  destruct Hmade as [(c1 & Hrun1 & _ & _ & Hargs1 & Hkw1 & Hopts1)
                     (c2 & Hrun2 & _ & _ & Hargs2 & Hkw2 & Hopts2)];
    [reflexivity|].
  split.
  - exists c1. split; [exact Hrun1|]. split; [exact Hargs1|]. split; [exact Hkw1|].
    unfold opts_keys, call_opts. rewrite Hopts1. reflexivity.
  - exists c2. split; [exact Hrun2|]. split; [exact Hargs2|]. split; [exact Hkw2|].
    unfold opts_keys, call_opts. rewrite Hopts2. reflexivity.
Defined.

(** ** A normal form for every builder *)

Lemma run_normal mp self o (kwargs : dict) (h : heap) :
  run mp self o kwargs h =
    (match op_explicit mp self o with
     | Ok explicit =>
         match keywords explicit
                 (match op_built o kwargs with
                  | Some _ => setdefault "opts" (VRef (List.length h)) (op_kwargs o kwargs)
                  | None => kwargs
                  end) with
         | Ok m => Ok (Call (op_target o) (op_path o) (op_args o) m)
         | Raise e => Raise e
         end
     | Raise e => Raise e
     end,
     match op_built o kwargs with
     | Some built => (h ++ [built])%list
     | None => h
     end).
Proof.
  destruct o; simpl run;
    rewrite ?mkdir_run, ?rm_run, ?read_run, ?cat_run, ?write_run, ?add_run;
    try reflexivity;
    try (unfold Files.ls, Files.stat, Base.file_ls, Base.ls, invoke;
         run_builder; by destruct (kwargs !! "decoder")).
  - simpl. by destruct (stream_files mp file (chunk_size self)) as [[? ?]|].
  - simpl. by destruct (stream_filesystem_node mp _ _ _ _) as [[? ?]|].
Qed.

Lemma builds_opts_built o (kwargs : dict) :
  builds_opts o = true ↔ is_Some (op_built o kwargs).
Proof.
  destruct o; simpl; split; try done; try (by intros [? ?]); by eauto.
Qed.

Lemma op_explicit_keys mp self o explicit :
  op_explicit mp self o = Ok explicit →
  Forall (λ kv, kv.1 ∈ ["decoder"; "data"; "headers"]) explicit.
Proof.
  destruct o; simpl; try (intros [= <-]; repeat constructor; simpl; set_solver).
  - destruct (stream_files _ _ _) as [[? ?]|]; [|done].
    intros [= <-]; repeat constructor; simpl; set_solver.
  - destruct (stream_filesystem_node _ _ _ _ _) as [[? ?]|]; [|done].
    intros [= <-]; repeat constructor; simpl; set_solver.
Qed.

Lemma op_kwargs_opts o (kwargs : dict) : op_kwargs o kwargs !! "opts" = kwargs !! "opts".
Proof. destruct o; simpl; try done. apply add_rest_lookup. set_solver. Qed.

(** The shape of a call that is made. *)
Lemma run_Ok mp self o (kwargs : dict) (h h' : heap) c :
  run mp self o kwargs h = (Ok c, h') →
  target c = op_target o ∧ path c = op_path o ∧ args c = op_args o
  ∧ kw c !! "opts" =
      (if builds_opts o then Some (default (VRef (List.length h)) (kwargs !! "opts"))
       else kwargs !! "opts").
Proof.
  rewrite run_normal.
  destruct (op_explicit mp self o) as [explicit|] eqn:Ex; [|done].
  destruct (keywords explicit _) as [m|] eqn:Ekw; [|done].
  intros [= <- _]. simpl. split_and!; try done.
  rewrite (keywords_lookup_other _ _ _ _ Ekw).
  - destruct (builds_opts o) eqn:Eb.
    + apply (builds_opts_built o kwargs) in Eb as [b ->].
      by rewrite setdefault_lookup, op_kwargs_opts.
    + destruct (op_built o kwargs) eqn:Eo; [|done].
      assert (builds_opts o = true) by (apply (builds_opts_built o kwargs); eauto).
      congruence.
  - eapply Forall_impl; [by eapply op_explicit_keys|].
    simpl. intros kv Hin Heq. rewrite Heq in Hin. set_solver.
Qed.

(** The heap after a call, made or not. *)
Lemma run_heap mp self o (kwargs : dict) (h : heap) :
  (run mp self o kwargs h).2 =
    match op_built o kwargs with
    | Some built => (h ++ [built])%list
    | None => h
    end.
Proof. by rewrite run_normal. Qed.

(** Without an encoder in the way, the call is always made. *)
Lemma run_builder_total mp self o (kwargs : dict) (h : heap) :
  builds_opts o = true → streams o = false →
  ∃ c, (run mp self o kwargs h).1 = Ok c.
Proof.
  intros Hb Hs. rewrite run_normal. destruct o; try done; simpl; by eexists.
Qed.

(** C7. [get(multihash)] always calls the download collaborator, with the
    path ['/get'] and the positional argument [multihash], passing the
    caller's keywords on; it creates no dict and makes no request.  Of all
    the methods, [get] is the only one whose call goes to the download
    collaborator: every call another method makes is a request. *)
Theorem get_downloads_and_only_get mp self multihash (kwargs : dict) (h : heap) :
  (∃ c, Base.get self multihash kwargs h = (Ok c, h)
        ∧ target c = Download ∧ path c = "/get"
        ∧ args c = Some [multihash] ∧ kw c = kwargs)
  ∧ (∀ o (kwargs' : dict) (h0 h' : heap) c,
       run mp self o kwargs' h0 = (Ok c, h') →
       (target c = Download ↔ ∃ m, o = Get m)).
Proof.
  split.
  - eexists. split; [apply invoke_plain|]. done.
  - intros o kwargs' h0 h' c (-> & _)%run_Ok.
    destruct o; simpl; split; try done; try (by intros [? ?]); by eauto.
Qed.

Lemma get_downloads_and_only_get_witness :
  (∃ c, Base.get client0 (VStr "QmeKoz") ∅ [] = (Ok c, [])
        ∧ target c = Download ∧ path c = "/get"
        ∧ args c = Some [VStr "QmeKoz"])
  ∧ (∃ c h', run multipart0 client0 (Cat (VStr "QmeKoz") None None) ∅ [] = (Ok c, h')
             ∧ ¬ target c = Download).
Proof.
  destruct (get_downloads_and_only_get multipart0 client0 (VStr "QmeKoz") ∅ [])
    as [(c & Hrun & Htarget & Hpath & Hargs & _) Honly].
  split.
  - exists c. split; [exact Hrun|]. split; [exact Htarget|].
    split; [exact Hpath | exact Hargs].
  - eexists _, _. split; [apply cat_run|].
    intros Hd.
    destruct (proj1 (Honly (Cat (VStr "QmeKoz") None None) ∅ [] _ _
                       (cat_run client0 (VStr "QmeKoz") None None ∅ [])) Hd)
      as [m Hm].
    discriminate Hm.
Defined.

(** C10. When the caller passes [opts], each of [mkdir], [read], [rm],
    [write], [add] and [cat] still creates its dict, but the call it makes
    carries the caller's [opts] and not that dict: the option map of the
    call is the caller's dict as it was, so a key the method always sets on
    its own dict is missing unless the caller's dict has it.  [mkdir],
    [read], [rm] and [cat] always make the call. *)
Theorem caller_opts_replace_built mp self o (kwargs : dict) v (h : heap) :
  builds_opts o = true →
  kwargs !! "opts" = Some v →
  ∃ r built,
    run mp self o kwargs h = (r, (h ++ [built])%list)
    ∧ op_built o kwargs = Some built
    ∧ (∀ c, r = Ok c →
         kw c !! "opts" = Some v
         ∧ (∀ l d, v = VRef l → h !! l = Some d →
              call_opts c (h ++ [built])%list = Some d
              ∧ opts_keys c (h ++ [built])%list = dom d))
    ∧ (streams o = false → ∃ c, r = Ok c).
Proof.
  intros Hb Hv.
  pose proof Hb as [built Hbuilt]%(builds_opts_built o kwargs).
  exists (run mp self o kwargs h).1, built.
  pose proof (run_heap mp self o kwargs h) as Hheap. rewrite Hbuilt in Hheap.
  split; [by rewrite <- Hheap, <- surjective_pairing|].
  split; [done|]. split.
  - intros c Hc.
    assert (run mp self o kwargs h = (Ok c, (h ++ [built])%list)) as Hrun.
    { by rewrite <- Hc, <- Hheap, <- surjective_pairing. }
    apply run_Ok in Hrun as (_ & _ & _ & Hopts).
    rewrite Hb, Hv in Hopts; simpl in Hopts.
    split; [done|]. intros l d -> Hd.
    assert (call_opts c (h ++ [built])%list = Some d) as Hcall.
    { unfold call_opts. rewrite Hopts.
      rewrite lookup_app_l by (by eapply lookup_lt_Some). done. }
    split; [done|]. unfold opts_keys. by rewrite Hcall.
  - intros Hs. by apply run_builder_total.
Qed.

Lemma caller_opts_replace_built_witness :
  ∃ c built,
    run multipart0 client0 (Mkdir (VStr "/x") (Some (VBool true)))
      {[ "opts" := VRef 0%nat ]} [ ∅ ]
      = (Ok c, [ ∅; built ])
    ∧ built = {[ "parents" := VBool true ]}
    ∧ kw c !! "opts" = Some (VRef 0%nat)
    ∧ opts_keys c [ ∅; built ] = dom (∅ : gmap string value).
Proof.
  destruct (caller_opts_replace_built multipart0 client0
              (Mkdir (VStr "/x") (Some (VBool true)))
              {[ "opts" := VRef 0%nat ]} (VRef 0%nat) [ ∅ ]
              ltac:(reflexivity) ltac:(reflexivity))
    as (r & built & Hrun & Hbuilt & Hcall & Hmade).
  destruct (Hmade eq_refl) as [c ->].
  destruct (Hcall c eq_refl) as [Hopts Hkeys].
  destruct (Hkeys 0%nat ∅ eq_refl eq_refl) as [_ Hdom].
  exists c, built. split; [exact Hrun|].
  split; [by injection Hbuilt as <-|].
  split; [exact Hopts | exact Hdom].
Defined.

Lemma keywords_agree explicit (m1 m2 : dict) e :
  Forall (λ kv, m1 !! kv.1 = m2 !! kv.1) explicit →
  keywords explicit m1 = Raise e ↔ keywords explicit m2 = Raise e.
Proof.
  induction 1 as [|[k v] rest Hk _ IH]; simpl; [done|].
  simpl in Hk. rewrite Hk. destruct (m2 !! k); [done|].
  destruct (keywords rest m1), (keywords rest m2); naive_solver.
Qed.

Lemma not_builds_opts o (kwargs : dict) :
  builds_opts o = false → op_built o kwargs = None.
Proof.
  intros Hb. destruct (op_built o kwargs) eqn:Eo; [|done].
  assert (builds_opts o = true) by (apply (builds_opts_built o kwargs); eauto).
  congruence.
Qed.

(** The options a call carries, read in the heap after the call: a function
    of the arguments of the method and of the caller's own dict. *)
Lemma run_call_opts mp self o (kwargs : dict) (h h' : heap) c :
  run mp self o kwargs h = (Ok c, h') →
  (∀ l, kwargs !! "opts" = Some (VRef l) → is_Some (h !! l)) →
  call_opts c h' =
    match kwargs !! "opts" with
    | None => op_built o kwargs
    | Some (VRef l) => h !! l
    | Some _ => None
    end.
Proof.
  intros Hrun Hlive.
  pose proof (run_heap mp self o kwargs h) as Hheap.
  rewrite Hrun in Hheap; simpl in Hheap.
  apply run_Ok in Hrun as (_ & _ & _ & Hopts).
  unfold call_opts. rewrite Hopts. destruct (builds_opts o) eqn:Eb.
  - pose proof Eb as [built Hbuilt]%(builds_opts_built o kwargs).
    rewrite Hbuilt in Hheap |- *. subst h'.
    destruct (kwargs !! "opts") as [v|] eqn:Ev; simpl.
    + destruct v; try done.
      apply lookup_app_l. apply lookup_lt_is_Some. by apply Hlive.
    + apply new_dict_lookup.
  - rewrite (not_builds_opts o kwargs Eb) in Hheap |- *. subst h'.
    destruct (kwargs !! "opts") as [v|] eqn:Ev; [by destruct v|done].
Qed.

(** C9. Take two calls of the same method with the same arguments, in any
    two states: the heaps, the clients and what the encoders of [multipart]
    return may all differ, as long as the dict the caller passes as [opts], if
    any, is a live object with the same contents in both.  Then calls that
    are made agree on the endpoint path, the positional arguments and the
    contents of the option map; with the same encoders and the same chunk
    size, one raises exactly when the other does.  No call changes an
    object that existed before it: the heap after the call is the heap before
    it, with at most one new dict at its end.  The dict a method creates for
    its options is that new object, at a reference that was not in use
    before. *)
Theorem builders_deterministic_no_shared_state
    mp1 mp2 self1 self2 o (kwargs : dict) (h1 h2 : heap) :
  (∀ l, kwargs !! "opts" = Some (VRef l) → is_Some (h1 !! l) ∧ h1 !! l = h2 !! l) →
  ∃ r1 r2 h1' h2',
    run mp1 self1 o kwargs h1 = (r1, h1')
    ∧ run mp2 self2 o kwargs h2 = (r2, h2')
    ∧ (∀ c1 c2, r1 = Ok c1 → r2 = Ok c2 → observe c1 h1' = observe c2 h2')
    ∧ (mp1 = mp2 → chunk_size self1 = chunk_size self2 →
       ∀ e, r1 = Raise e ↔ r2 = Raise e)
    ∧ h1 `prefix_of` h1' ∧ h2 `prefix_of` h2'
    ∧ (∀ c, r1 = Ok c → builds_opts o = true → kwargs !! "opts" = None →
         kw c !! "opts" = Some (VRef (List.length h1))
         ∧ h1 !! List.length h1 = None
         ∧ h1' !! List.length h1 = op_built o kwargs).
Proof.
  intros Hsame.
  exists (run mp1 self1 o kwargs h1).1, (run mp2 self2 o kwargs h2).1,
         (run mp1 self1 o kwargs h1).2, (run mp2 self2 o kwargs h2).2.
  split; [apply surjective_pairing|]. split; [apply surjective_pairing|].
  split_and!.
  - intros c1 c2 Hc1 Hc2.
    assert (run mp1 self1 o kwargs h1 = (Ok c1, (run mp1 self1 o kwargs h1).2))
      as Hrun1 by (by rewrite <- Hc1, <- surjective_pairing).
    assert (run mp2 self2 o kwargs h2 = (Ok c2, (run mp2 self2 o kwargs h2).2))
      as Hrun2 by (by rewrite <- Hc2, <- surjective_pairing).
    unfold observe.
    rewrite (run_call_opts _ _ _ _ _ _ _ Hrun1) by (intros l Hl; by apply Hsame).
    rewrite (run_call_opts _ _ _ _ _ _ _ Hrun2)
      by (intros l Hl; destruct (Hsame l Hl) as [? <-]; done).
    apply run_Ok in Hrun1 as (_ & -> & -> & _).
    apply run_Ok in Hrun2 as (_ & -> & -> & _).
    f_equal. destruct (kwargs !! "opts") as [v|] eqn:Ev; [|done].
    destruct v; try done. by apply Hsame.
  - intros <- Hchunk e. rewrite !run_normal; simpl.
    assert (op_explicit mp1 self1 o = op_explicit mp1 self2 o) as <-.
    { destruct o; simpl; by rewrite ?Hchunk. }
    destruct (op_explicit mp1 self1 o) as [explicit|] eqn:Ex; [|done].
    assert (∀ m1 m2 : result dict,
              (m1 = Raise e ↔ m2 = Raise e) →
              match m1 with
              | Ok m => Ok (Call (op_target o) (op_path o) (op_args o) m)
              | Raise e' => Raise e'
              end = Raise e
              ↔ match m2 with
                | Ok m => Ok (Call (op_target o) (op_path o) (op_args o) m)
                | Raise e' => Raise e'
                end = Raise e) as Hlift.
    { intros [m1|e1] [m2|e2] H12; naive_solver. }
    apply Hlift, keywords_agree.
    eapply Forall_impl; [by eapply op_explicit_keys|].
    simpl. intros kv Hkv. destruct (op_built o kwargs); [|done].
    rewrite !setdefault_lookup_ne; [done|intros Heq; rewrite <- Heq in Hkv; set_solver..].
  - rewrite run_heap. destruct (op_built o kwargs); [by apply prefix_app_r|done].
  - rewrite run_heap. destruct (op_built o kwargs); [by apply prefix_app_r|done].
  - intros c Hc Hb Hno.
    assert (run mp1 self1 o kwargs h1 = (Ok c, (run mp1 self1 o kwargs h1).2))
      as Hrun by (by rewrite <- Hc, <- surjective_pairing).
    apply run_Ok in Hrun as (_ & _ & _ & Hopts).
    rewrite Hb, Hno in Hopts.
    split; [done|]. split; [by apply lookup_ge_None|].
    rewrite run_heap.
    pose proof Hb as [built Hbuilt]%(builds_opts_built o kwargs).
    rewrite Hbuilt. apply new_dict_lookup.
Qed.

Lemma builders_deterministic_no_shared_state_witness :
  (∃ c1 c2 h1' h2',
     run multipart0 client0 (Read (VStr "/bla/file") None (Some (VInt 5))) ∅ []
       = (Ok c1, h1')
     ∧ run multipart1 client1 (Read (VStr "/bla/file") None (Some (VInt 5))) ∅
         [ {[ "parents" := VBool true ]} ]
       = (Ok c2, h2')
     ∧ observe c1 h1' = observe c2 h2'
     ∧ kw c1 !! "opts" = Some (VRef 0%nat))
  ∧ (∃ c1 c2 h1' h2',
       run multipart0 client0 (Rm (VStr "/bla") None) {[ "opts" := VRef 0%nat ]}
         [ {[ "recursive" := VBool true ]} ]
         = (Ok c1, h1')
       ∧ run multipart1 client1 (Rm (VStr "/bla") None) {[ "opts" := VRef 0%nat ]}
           [ {[ "recursive" := VBool true ]}; ∅ ]
         = (Ok c2, h2')
       ∧ observe c1 h1' = observe c2 h2'
       ∧ [ {[ "recursive" := VBool true ]} ] `prefix_of` h1').
Proof.
  split.
  - destruct (builders_deterministic_no_shared_state multipart0 multipart1
                client0 client1 (Read (VStr "/bla/file") None (Some (VInt 5))) ∅
                [] [ {[ "parents" := VBool true ]} ])
      as (r1 & r2 & h1' & h2' & Hrun1 & Hrun2 & Hobs & _ & _ & _ & Hfresh).
    { intros l Hl. discriminate Hl. }
    simpl run in Hrun1, Hrun2. rewrite read_run in Hrun1, Hrun2.
    injection Hrun1 as <- <-. injection Hrun2 as <- <-.
    eexists _, _, _, _. split; [apply read_run|]. split; [apply read_run|].
    split; [by apply Hobs|]. by apply Hfresh.
  - destruct (builders_deterministic_no_shared_state multipart0 multipart1
                client0 client1 (Rm (VStr "/bla") None) {[ "opts" := VRef 0%nat ]}
                [ {[ "recursive" := VBool true ]} ]
                [ {[ "recursive" := VBool true ]}; ∅ ])
      as (r1 & r2 & h1' & h2' & Hrun1 & Hrun2 & Hobs & _ & Hpre & _ & _).
    { intros l Hl. rewrite lookup_singleton_eq in Hl. injection Hl as <-.
      split; [by eexists|reflexivity]. }
    simpl run in Hrun1, Hrun2. rewrite rm_run in Hrun1, Hrun2.
    injection Hrun1 as <- <-. injection Hrun2 as <- <-.
    eexists _, _, _, _. split; [apply rm_run|]. split; [apply rm_run|].
    split; [by apply Hobs | exact Hpre].
Defined.

(** ** Further properties of the builders *)

(** X1. [mv(source, dest)] always makes the request to ['/files/mv'] with
    the positional arguments [source], [dest] in that order; it creates no
    dict and passes the caller's keywords on as they are. *)
Theorem mv_args_and_no_options self source dest (kwargs : dict) (h : heap) :
  ∃ c, Files.mv self source dest kwargs h = (Ok c, h)
       ∧ target c = Request ∧ path c = "/files/mv"
       ∧ args c = Some [source; dest]
       ∧ kw c = kwargs
       ∧ (kwargs !! "opts" = None → opts_keys c h = ∅).
Proof.
  eexists. split; [apply invoke_plain|]. split_and!; try done.
  intros Hno. unfold opts_keys, call_opts; simpl. by rewrite Hno.
Qed.

Lemma mv_args_and_no_options_witness :
  ∃ c, Files.mv client0 (VStr "/test/file") (VStr "/bla/file") ∅ [] = (Ok c, [])
       ∧ args c = Some [VStr "/test/file"; VStr "/bla/file"]
       ∧ opts_keys c [] = ∅.
Proof.
  destruct (mv_args_and_no_options client0 (VStr "/test/file") (VStr "/bla/file") ∅ [])
    as (c & Hrun & _ & _ & Hargs & _ & Hno).
  exists c. split; [exact Hrun|]. split; [exact Hargs | apply Hno; reflexivity].
Defined.

(** X2. A request made by [ls], [stat], [add], [file_ls] or [Base.ls] has
    [decoder='json']; a request or download made by any other method has the
    caller's [decoder], if any.  The caller cannot replace the decoder of the
    five: with a [decoder] keyword from the caller they make no call. *)
Theorem decoder_is_json_or_the_callers mp self o (kwargs : dict) (h : heap) :
  (∀ c h', run mp self o kwargs h = (Ok c, h') →
     kw c !! "decoder" =
       if decodes_json o then Some (VStr "json") else kwargs !! "decoder")
  ∧ (decodes_json o = true → is_Some (kwargs !! "decoder") →
     ∀ c, (run mp self o kwargs h).1 ≠ Ok c).
Proof.
  split.
  - intros c h'. rewrite run_normal.
    destruct (op_explicit mp self o) as [explicit|] eqn:Ex; [|done].
    destruct (keywords explicit _) as [m|] eqn:Ekw; [|done].
    intros [= <- _]. simpl.
    apply keywords_Ok in Ekw as [_ ->].
    destruct o; simpl in Ex |- *;
      try (injection Ex as <-; simpl;
           rewrite ?lookup_insert_eq, ?setdefault_lookup_ne by done; done).
    + destruct (stream_files _ _ _) as [[b hd]|]; [|done].
      injection Ex as <-; simpl.
      rewrite !lookup_insert_ne by done. by rewrite setdefault_lookup_ne.
    + destruct (stream_filesystem_node _ _ _ _ _) as [[b hd]|]; [|done].
      injection Ex as <-; simpl. by rewrite lookup_insert_eq.
  - intros Hj [d Hd] c. rewrite run_normal; simpl.
    destruct o; try done; simpl; rewrite ?Hd; try done.
    destruct (stream_filesystem_node _ _ _ _ _) as [[b hd]|]; [|done].
    simpl. rewrite setdefault_lookup_ne by done.
    rewrite add_rest_lookup by set_solver. by rewrite Hd.
Qed.

Lemma decoder_is_json_or_the_callers_witness :
  (∃ c h', run multipart0 client0 (FileLs (VStr "QmTkzD")) ∅ [] = (Ok c, h')
           ∧ kw c !! "decoder" = Some (VStr "json"))
  ∧ (∀ c, (run multipart0 client0 (BaseLs (VStr "QmTkzD"))
             {[ "decoder" := VStr "text" ]} []).1 ≠ Ok c).
Proof.
  destruct (decoder_is_json_or_the_callers multipart0 client0
              (FileLs (VStr "QmTkzD")) ∅ []) as [Hjson _].
  destruct (decoder_is_json_or_the_callers multipart0 client0
              (BaseLs (VStr "QmTkzD")) {[ "decoder" := VStr "text" ]} [])
    as [_ Hclash].
  split.
  - eexists _, _. split; [reflexivity|]. eapply Hjson. reflexivity.
  - apply Hclash; [reflexivity|]. by eexists.
Defined.







Lemma op_explicit_own mp self o explicit :
  op_explicit mp self o = Ok explicit →
  Forall (λ kv, kv.1 ∈ own_keywords o) explicit.
Proof.
  destruct o; simpl; try (intros [= <-]; repeat constructor; simpl; set_solver).
  - destruct (stream_files _ _ _) as [[? ?]|]; [|done].
    intros [= <-]; repeat constructor; simpl; set_solver.
  - destruct (stream_filesystem_node _ _ _ _ _) as [[? ?]|]; [|done].
    intros [= <-]; repeat constructor; simpl; set_solver.
Qed.

Lemma builds_opts_own o : builds_opts o = true → "opts" ∈ own_keywords o.
Proof. destruct o; simpl; try done; set_solver. Qed.

Lemma popped_not_own o k : k ∈ popped o → k ∉ own_keywords o.
Proof.
  destruct o; simpl; try (by intros ?%elem_of_nil).
  intros Hk Hown. set_solver.
Qed.

(** X6. Every keyword of the caller that a method neither sets itself nor
    pops for its own use reaches the collaborator with the caller's value,
    and no other keyword is added.  The six keywords [add] pops
    ([trickle], [only_hash], [wrap_with_directory], [pin], [nocopy],
    [chunker]) are never keywords of its request. *)
Theorem other_keywords_pass_through mp self o (kwargs : dict) (h h' : heap) c :
  run mp self o kwargs h = (Ok c, h') →
  (∀ k, k ∉ own_keywords o → k ∉ popped o → kw c !! k = kwargs !! k)
  ∧ (∀ k, k ∈ popped o → kw c !! k = None).
Proof.
  rewrite run_normal.
  destruct (op_explicit mp self o) as [explicit|] eqn:Ex; [|done].
  destruct (keywords explicit _) as [m|] eqn:Ekw; [|done].
  intros [= <- _]. simpl.
  assert (∀ k, k ∉ own_keywords o →
            m !! k = match op_built o kwargs with
                     | Some _ => op_kwargs o kwargs !! k
                     | None => kwargs !! k
                     end) as Hm.
  { intros k Hk. rewrite (keywords_lookup_other _ _ _ _ Ekw).
    - destruct (op_built o kwargs) eqn:Eb; [|done].
      apply setdefault_lookup_ne. intros <-. apply Hk, builds_opts_own.
      apply (builds_opts_built o kwargs). eauto.
    - eapply Forall_impl; [by eapply op_explicit_own|].
      simpl. intros kv Hin Heq. by rewrite Heq in Hin. }
  split.
  - intros k Hown Hpop. rewrite Hm by done.
    destruct (op_built o kwargs); [|done].
    destruct o; simpl; try done. by apply add_rest_lookup.
  - intros k Hpop. rewrite Hm by (by apply popped_not_own).
    destruct o; simpl in Hpop; try (by apply elem_of_nil in Hpop).
    simpl. by apply add_rest_popped.
Qed.

Lemma other_keywords_pass_through_witness :
  ∃ c h',
    run multipart0 client0 (Add (VStr "nurseryrhyme.txt") None None [])
      (<["stream" := VBool true]> {[ "pin" := VBool false ]}) [] = (Ok c, h')
    ∧ kw c !! "stream" = Some (VBool true)
    ∧ kw c !! "pin" = None.
Proof.
  assert (∃ c h',
            run multipart0 client0 (Add (VStr "nurseryrhyme.txt") None None [])
              (<["stream" := VBool true]> {[ "pin" := VBool false ]}) [] = (Ok c, h'))
    as (c & h' & Hrun).
  { simpl run. rewrite add_run. unfold multipart0, encoder0.
    cbn [stream_filesystem_node].
    rewrite keywords_free; [by eexists _, _|].
    repeat constructor; vm_compute; reflexivity. }
  exists c, h'. split; [exact Hrun|].
  destruct (other_keywords_pass_through multipart0 client0
              (Add (VStr "nurseryrhyme.txt") None None [])
              (<["stream" := VBool true]> {[ "pin" := VBool false ]}) [] h' c Hrun)
    as [Hpass Hpop].
  split.
  - rewrite Hpass; [reflexivity| |]; simpl; set_solver.
  - apply Hpop. simpl. set_solver.
Defined.



(** X8. A call made after another does not change the options of the
    earlier one: read in the heap left by the later call, made or not, the
    option map of the earlier call is what it was.  When both calls carry the
    dict their method created, the two dicts are different objects. *)
Theorem later_call_keeps_earlier_options
    mp1 mp2 self1 self2 o1 o2 (kwargs1 kwargs2 : dict) (h h1 h2 : heap) c1 r2 :
  (∀ l, kwargs1 !! "opts" = Some (VRef l) → is_Some (h !! l)) →
  run mp1 self1 o1 kwargs1 h = (Ok c1, h1) →
  run mp2 self2 o2 kwargs2 h1 = (r2, h2) →
  call_opts c1 h2 = call_opts c1 h1
  ∧ (builds_opts o1 = true → kwargs1 !! "opts" = None → is_Some (call_opts c1 h1))
  ∧ (∀ c2, r2 = Ok c2 →
       builds_opts o1 = true → kwargs1 !! "opts" = None →
       builds_opts o2 = true → kwargs2 !! "opts" = None →
       kw c1 !! "opts" ≠ kw c2 !! "opts").
Proof.
  intros Hlive Hrun1 Hrun2.
  pose proof (run_heap mp1 self1 o1 kwargs1 h) as Hh1.
  rewrite Hrun1 in Hh1; simpl in Hh1.
  pose proof (run_heap mp2 self2 o2 kwargs2 h1) as Hh2.
  rewrite Hrun2 in Hh2; simpl in Hh2.
  assert (h1 `prefix_of` h2) as Hpre.
  { rewrite Hh2. destruct (op_built o2 kwargs2); [by apply prefix_app_r|done]. }
  pose proof (run_call_opts _ _ _ _ _ _ _ Hrun1 Hlive) as Hopts1.
  pose proof Hrun1 as (_ & _ & _ & Hkw1)%run_Ok.
  split_and!.
  - unfold call_opts in Hopts1 |- *. rewrite Hkw1 in Hopts1 |- *.
    destruct (builds_opts o1) eqn:Eb1.
    + pose proof Eb1 as [b1 Hb1]%(builds_opts_built o1 kwargs1).
      rewrite Hb1 in Hh1. subst h1.
      destruct (kwargs1 !! "opts") as [v|] eqn:Ev; simpl in *.
      * destruct v as [| | | |l|]; try done.
        destruct (Hlive l eq_refl) as [d Hd].
        rewrite lookup_app_l in Hopts1 |- * by (by eapply lookup_lt_Some).
        rewrite Hd. eapply prefix_lookup_Some; [|done].
        rewrite lookup_app_l by (by eapply lookup_lt_Some). done.
      * rewrite new_dict_lookup.
        eapply prefix_lookup_Some; [|done]. apply new_dict_lookup.
    + rewrite (not_builds_opts o1 kwargs1 Eb1) in Hh1. subst h1.
      destruct (kwargs1 !! "opts") as [v|] eqn:Ev; [|done].
      destruct v as [| | | |l|]; try done.
      destruct (Hlive l eq_refl) as [d Hd]. rewrite Hd.
      by eapply prefix_lookup_Some.
  - intros Eb1 Hno1. rewrite Hopts1, Hno1.
    by apply (builds_opts_built o1 kwargs1).
  - intros c2 -> Eb1 Hno1 Eb2 Hno2.
    apply run_Ok in Hrun2 as (_ & _ & _ & Hkw2).
    rewrite Hkw1, Hkw2, Eb1, Eb2, Hno1, Hno2. simpl.
    pose proof Eb1 as [b1 Hb1]%(builds_opts_built o1 kwargs1).
    rewrite Hb1 in Hh1. subst h1. rewrite length_app. simpl.
    intros [= Heq]. lia.
Qed.

Lemma later_call_keeps_earlier_options_witness :
  ∃ c1 h1 c2 h2,
    run multipart0 client0 (Mkdir (VStr "/test") None) ∅ [] = (Ok c1, h1)
    ∧ run multipart0 client0 (Rm (VStr "/test") (Some (VBool true))) ∅ h1
      = (Ok c2, h2)
    ∧ call_opts c1 h2 = call_opts c1 h1
    ∧ is_Some (call_opts c1 h1)
    ∧ kw c1 !! "opts" ≠ kw c2 !! "opts".
Proof.
  eexists _, _, _, _.
  split; [apply mkdir_run|]. split; [apply rm_run|].
  assert (∀ l : nat,
            (∅ : gmap string value) !! "opts" = Some (VRef l) →
            is_Some (([] : list (gmap string value)) !! l)) as Hlive.
  { intros l Hl. rewrite lookup_empty in Hl. discriminate Hl. }
  destruct (later_call_keeps_earlier_options multipart0 multipart0 client0 client0
              (Mkdir (VStr "/test") None) (Rm (VStr "/test") (Some (VBool true)))
              ∅ ∅ [] _ _ _ _ Hlive
              (mkdir_run client0 (VStr "/test") None ∅ [])
              (rm_run client0 (VStr "/test") (Some (VBool true)) ∅ _))
    as (Hkeep & Hsome & Hdiff).
  split; [exact Hkeep|]. split; [by apply Hsome|].
  by apply Hdiff.
Defined.

(** X9. When the caller gives [opts], the parameters from which [mkdir],
    [rm], [read] and [cat] build their options have no effect: the request
    is made with the caller's keywords exactly, whatever [parents],
    [recursive], [offset], [count] and [length] are. *)
Theorem option_parameters_ignored_when_opts_given
    self p parents recursive offset count length (kwargs : dict) v (h : heap) :
  kwargs !! "opts" = Some v →
  (Files.mkdir self p parents kwargs h).1
    = Ok (Call Request "/files/mkdir" (Some [p]) kwargs)
  ∧ (Files.rm self p recursive kwargs h).1
    = Ok (Call Request "/files/rm" (Some [p]) kwargs)
  ∧ (Files.read self p offset count kwargs h).1
    = Ok (Call Request "/files/read" (Some [p]) kwargs)
  ∧ (Base.cat self p offset length kwargs h).1
    = Ok (Call Request "/cat" (Some [p]) kwargs).
Proof.
  intros Hv. rewrite mkdir_run, rm_run, read_run, cat_run. simpl.
  unfold setdefault. by rewrite Hv.
Qed.

Lemma option_parameters_ignored_when_opts_given_witness :
  (Files.mkdir client0 (VStr "/x") (Some (VBool true))
     {[ "opts" := VRef 0%nat ]} [ ∅ ]).1
    = Ok (Call Request "/files/mkdir" (Some [VStr "/x"]) {[ "opts" := VRef 0%nat ]})
  ∧ (Files.read client0 (VStr "/x") (Some (VInt 7)) (Some (VInt 5))
       {[ "opts" := VRef 0%nat ]} [ ∅ ]).1
    = Ok (Call Request "/files/read" (Some [VStr "/x"]) {[ "opts" := VRef 0%nat ]}).
Proof.
  destruct (option_parameters_ignored_when_opts_given client0 (VStr "/x")
              (Some (VBool true)) None (Some (VInt 7)) (Some (VInt 5)) None
              {[ "opts" := VRef 0%nat ]} (VRef 0%nat) [ ∅ ])
    as (Hmkdir & _ & Hread & _); [apply lookup_singleton_eq|].
  split; [exact Hmkdir | exact Hread].
Defined.

Lemma add_rest_agree (kwargs1 kwargs2 : dict) :
  (∀ k, k ∉ [ "trickle"; "only_hash"; "wrap_with_directory"; "pin"; "nocopy";
              "chunker" ] → kwargs1 !! k = kwargs2 !! k) →
  add_rest kwargs1 = add_rest kwargs2.
Proof.
  intros Hagree. apply map_eq. intros k.
  destruct (decide (k ∈ [ "trickle"; "only_hash"; "wrap_with_directory"; "pin";
                          "nocopy"; "chunker" ])) as [Hin|Hout].
  - by rewrite !add_rest_popped.
  - rewrite !add_rest_lookup by done. by apply Hagree.
Qed.

(** X10. When the caller gives [opts], the option keywords of [add] and the
    option parameters of [write] are dropped without a trace: two calls of
    [add] whose keywords differ only in [trickle], [only_hash],
    [wrap_with_directory], [pin], [nocopy] and [chunker] make the same
    request or raise the same exception, and so do two calls of [write] that
    differ only in [offset], [create], [truncate] and [count]. *)
Theorem streamed_options_ignored_when_opts_given
    sf sfn self p file files recursive pattern args args'
    offset create truncate count offset' create' truncate' count'
    (kwargs kwargs' : dict) v (h : heap) :
  kwargs !! "opts" = Some v →
  (∀ k, k ∉ popped (Add files recursive pattern args) → kwargs' !! k = kwargs !! k) →
  (Base.add sfn self files recursive pattern args kwargs h).1
    = (Base.add sfn self files recursive pattern args' kwargs' h).1
  ∧ (Files.write sf self p file offset create truncate count kwargs h).1
    = (Files.write sf self p file offset' create' truncate' count' kwargs h).1.
Proof.
  intros Hv Hagree. rewrite !add_run, !write_run. simpl. split; [|done].
  rewrite (add_rest_agree kwargs' kwargs) by done.
  assert (add_rest kwargs !! "opts" = Some v) as Hrest.
  { rewrite add_rest_lookup by set_solver. done. }
  unfold setdefault. by rewrite !Hrest.
Qed.

Lemma streamed_options_ignored_when_opts_given_witness :
  (Base.add encoder0 client0 (VStr "nurseryrhyme.txt") None None []
     {[ "opts" := VRef 0%nat ]} [ ∅ ]).1
  = (Base.add encoder0 client0 (VStr "nurseryrhyme.txt") None None []
       (<["trickle" := VBool true]> {[ "opts" := VRef 0%nat ]}) [ ∅ ]).1.
Proof.
  destruct (streamed_options_ignored_when_opts_given (encoder0 VNone VNone) encoder0
              client0 (VStr "/f") (VObj 0) (VStr "nurseryrhyme.txt") None None [] []
              None None None None None None None None
              {[ "opts" := VRef 0%nat ]}
              (<["trickle" := VBool true]> {[ "opts" := VRef 0%nat ]})
              (VRef 0%nat) [ ∅ ]) as [Hadd _].
  - apply lookup_singleton_eq.
  - intros k Hk. apply lookup_insert_ne. intros <-. apply Hk. simpl. set_solver.
  - exact Hadd.
Defined.
